(** * colav_simulator/common/config_parsing.py

    A shallow embedding of the configuration pipeline: reading a schema and a
    settings file, validating the settings with the Cerberus rule engine,
    overriding top-level keys with keyword arguments, and converting the
    result to a dataclass with dacite.

    Python objects live in a heap: a dictionary or a list is reached through
    a reference, so that `new_settings = settings` followed by
    `new_settings[key] = value` is seen through every alias of the object. *)

From Stdlib Require Import ZArith String List Floats.SpecFloat.
From stdpp Require Import base option list gmap strings.

Local Open Scope string_scope.
Local Open Scope list_scope.

(** ** Values and objects *)

Abbreviation loc := positive.

(** Immediate values, and references to heap objects. A reference that the
    heap does not hold cannot arise in a Python run; the definitions below
    treat it as an object without any protocol of its own. *)
Inductive value : Type :=
  | VNone
  | VBool (b : bool)
  | VInt (z : Z)
  | VFloat (f : spec_float)
  | VStr (s : string)
  | VRef (l : loc).

(** A `dict` keeps its items in insertion order; its keys are the strings of
    a YAML mapping or of `**kwargs`. *)
Abbreviation items := (list (string * value)).

Inductive object : Type :=
  | ODict (d : items)
  | OList (xs : list value).

Abbreviation heap := (gmap loc object).

(** ** Exceptions and the effect monad *)

Inductive exn : Type :=
  | ValueError (msg : string)
  | TypeError (msg : string)
  | AttributeError (msg : string)
  | LibraryError (origin msg : string).

Inductive outcome (A : Type) : Type :=
  | Return (a : A)
  | Raise (e : exn).
Arguments Return {A} a.
Arguments Raise {A} e.

(** A Python computation: it runs on a heap, may change it, and either
    returns or raises. *)
Definition Py (A : Type) : Type := heap → heap * outcome A.

#[export] Instance Py_ret : MRet Py := λ A a σ, (σ, Return a).

#[export] Instance Py_bind : MBind Py := λ A B k m σ,
  match m σ with
  | (σ', Return a) => k a σ'
  | (σ', Raise e) => (σ', Raise e)
  end.

Definition raise {A : Type} (e : exn) : Py A := λ σ, (σ, Raise e).

Definition get_heap : Py heap := λ σ, (σ, Return σ).

Definition store (l : loc) (o : object) : Py unit := λ σ, (<[l := o]> σ, Return tt).

(** `for x in xs: body(x)` *)
Fixpoint for_each {A : Type} (xs : list A) (body : A → Py unit) : Py unit :=
  match xs with
  | [] => mret tt
  | x :: xs' => body x ;; for_each xs' body
  end.

(** ** Built-in behaviour of the objects *)

(** `bool(v)`: the truth value tested by `not v`. *)
Definition truthy (σ : heap) (v : value) : bool :=
  match v with
  | VNone => false
  | VBool b => b
  | VInt z => negb (z =? 0)%Z
  | VFloat (S754_zero _) => false
  | VFloat _ => true
  | VStr EmptyString => false
  | VStr _ => true
  | VRef l =>
      match σ !! l with
      | Some (ODict []) => false
      | Some (OList []) => false
      | _ => true
      end
  end.

(** `type(v).__name__` *)
Definition type_name (σ : heap) (v : value) : string :=
  match v with
  | VNone => "NoneType"
  | VBool _ => "bool"
  | VInt _ => "int"
  | VFloat _ => "float"
  | VStr _ => "str"
  | VRef l =>
      match σ !! l with
      | Some (ODict _) => "dict"
      | Some (OList _) => "list"
      | None => "object"
      end
  end.

(** `d[k]` on the items of a dictionary. *)
Fixpoint dict_get (d : items) (k : string) : option value :=
  match d with
  | [] => None
  | (k', v') :: d' => if decide (k = k') then Some v' else dict_get d' k
  end.

(** `d[k] = v` on the items of a dictionary: an existing key keeps its place
    and takes the new value, a new key goes to the end. *)
Fixpoint dict_setitem (d : items) (k : string) (v : value) : items :=
  match d with
  | [] => [(k, v)]
  | (k', v') :: d' =>
      if decide (k = k') then (k, v) :: d' else (k', v') :: dict_setitem d' k v
  end.

(** The items after `for k, v in kw: d[k] = v`. *)
Definition dict_update (d : items) (kw : items) : items :=
  foldl (λ acc kv, dict_setitem acc kv.1 kv.2) d kw.

(** `target[key] = v` *)
Definition setitem (target : value) (key : string) (v : value) : Py unit :=
  σ ← get_heap;
  match target with
  | VRef l =>
      match σ !! l with
      | Some (ODict d) => store l (ODict (dict_setitem d key v))
      | Some (OList _) =>
          raise (TypeError "list indices must be integers or slices, not str")
      | None => raise (TypeError "'object' object does not support item assignment")
      end
  | _ =>
      raise (TypeError ("'" +:+ type_name σ target +:+
                        "' object does not support item assignment"))
  end.

(** `target.keys()`, as the sequence the `for` loop runs over. *)
Definition keys (target : value) : Py (list string) :=
  σ ← get_heap;
  match target with
  | VRef l =>
      match σ !! l with
      | Some (ODict d) => mret (d.*1)
      | _ =>
          raise (AttributeError ("'" +:+ type_name σ target +:+
                                 "' object has no attribute 'keys'"))
      end
  | _ =>
      raise (AttributeError ("'" +:+ type_name σ target +:+
                             "' object has no attribute 'keys'"))
  end.

(** ** The collaborators

    The file reader (`colav_simulator.common.file_utils`), the Cerberus
    `Validator` and dacite's `from_dict` are not part of this module; the
    module is verified for every behaviour they may have. *)

Record dacite_Config (hooks : Type) : Type := Config { type_hooks : hooks }.
Arguments Config {hooks} type_hooks.
Arguments type_hooks {hooks} _.

Class Collaborators : Type := {
  Path : Type;
  data_class : Type;
  dataclass_instance : Type;
  converter : Type;
  validator : Type;
  validator_errors : Type;
  (** `futils.read_yaml_into_dict(path)` *)
  read_yaml_into_dict : Path → Py value;
  (** `Validator(schema)` *)
  Validator : value → Py validator;
  (** `validator.validate(document)`, with `validator.errors` as it stands
      after the call *)
  Validator_validate : validator → value → Py (bool * validator_errors);
  (** `str(validator.errors)`, as formatted into the f-string *)
  str_errors : validator_errors → string;
  (** `dacite.from_dict(data_class=..., data=..., config=...)` *)
  from_dict :
    data_class → value → option (dacite_Config converter) → Py dataclass_instance
}.

(** ** The module *)

Section config_parsing.
Context `{C : Collaborators}.

Definition convert_settings_dict_to_dataclass
    (dc : data_class) (config_dict : value) (conv : option converter)
    : Py dataclass_instance :=
  match conv with
  | Some c => from_dict dc config_dict (Some (Config c))
  | None => from_dict dc config_dict None
  end.

Definition validate (settings schema : value) : Py unit :=
  σ ← get_heap;
  if negb (truthy σ settings) then raise (ValueError "Empty settings!")
  else
    σ ← get_heap;
    if negb (truthy σ schema) then raise (ValueError "Empty schema!")
    else
      v ← Validator schema;
      r ← Validator_validate v settings;
      if negb r.1 then
        raise (ValueError ("Cerberus validation Error: " +:+ str_errors r.2))
      else mret tt.

Definition extract_valid_sections (schema : value) : Py (list string) :=
  match schema with
  | VNone => raise (ValueError "No configuration schema provided!")
  | _ =>
      ks ← keys schema;
      mret (foldl (λ sections section, sections ++ [section]) [] ks)
  end.

Definition parse (file_name : Path) (schema : value) : Py value :=
  settings ← read_yaml_into_dict file_name;
  validate settings schema ;;
  mret settings.

Definition override (settings schema : value) (kwargs : items) : Py value :=
  match kwargs with
  | [] => mret settings
  | _ =>
      let new_settings := settings in
      for_each kwargs (λ kv, setitem new_settings kv.1 kv.2) ;;
      validate settings schema ;;
      mret new_settings
  end.

Definition extract
    (dc : data_class) (config_file config_schema : Path)
    (conv : option converter) (kwargs : items) : Py dataclass_instance :=
  schema ← read_yaml_into_dict config_schema;
  settings ← parse config_file schema;
  settings ← override settings schema kwargs;
  settings ← convert_settings_dict_to_dataclass dc settings conv;
  mret settings.

End config_parsing.

(** ** Vocabulary of the statements *)

(** [v] is a reference to the dictionary with items [d]. *)
Definition is_mapping (σ : heap) (v : value) (d : items) : Prop :=
  ∃ l, v = VRef l ∧ σ !! l = Some (ODict d).

(** A computation that leaves every heap as it found it. *)
Definition read_only {A : Type} (m : Py A) : Prop := ∀ σ, (m σ).1 = σ.

(** The rule engine inspects the schema and the document without writing
    to them. *)
Definition engine_read_only `{C : Collaborators} : Prop :=
  (∀ schema, read_only (Validator schema)) ∧
  (∀ v document, read_only (Validator_validate v document)).

(** The rule engine accepts document [M] under schema [S]. *)
Definition satisfies `{C : Collaborators} (σ : heap) (M S : value) : Prop :=
  ∃ v σ1 σ2 errs,
    Validator S σ = (σ1, Return v) ∧
    Validator_validate v M σ1 = (σ2, Return (true, errs)).

(** The rule engine rejects document [M] under schema [S], reporting [errs]. *)
Definition violates `{C : Collaborators}
    (σ : heap) (M S : value) (errs : validator_errors) : Prop :=
  ∃ v σ1 σ2,
    Validator S σ = (σ1, Return v) ∧
    Validator_validate v M σ1 = (σ2, Return (false, errs)).

(** ** A small instance of the collaborators

    Files are a fixed table; the rule engine accepts a document when each of
    its top-level keys is a key of the schema and reports the others; the
    conversion picks the declared fields. It serves to run the module on
    concrete inputs. *)
Module Demo.

Definition alloc (o : object) : Py value := λ σ,
  let l := fresh (dom σ) in (<[l := o]> σ, Return (VRef l)).

Definition files (path : string) : option items :=
  if decide (path = "schema.yaml") then
    Some [("speed", VStr "float"); ("name", VStr "string")]
  else if decide (path = "config.yaml") then
    Some [("speed", VFloat (S754_finite false 3 (-1)))]
  else if decide (path = "bad.yaml") then
    Some [("colour", VStr "red")]
  else if decide (path = "empty.yaml") then Some []
  else None.

Definition read (path : string) : Py value :=
  match files path with
  | Some d => alloc (ODict d)
  | None => raise (LibraryError "file_utils" "FileNotFoundError")
  end.

Definition new_validator (schema : value) : Py items := λ σ,
  match schema with
  | VRef l =>
      match σ !! l with
      | Some (ODict d) => (σ, Return d)
      | _ => (σ, Raise (LibraryError "cerberus" "SchemaError"))
      end
  | _ => (σ, Raise (LibraryError "cerberus" "SchemaError"))
  end.

Definition unknown_fields (rules : items) (doc : items) : list string :=
  filter (λ k, k ∉ rules.*1) doc.*1.

Definition run_validator (rules : items) (document : value)
    : Py (bool * list string) := λ σ,
  match document with
  | VRef l =>
      match σ !! l with
      | Some (ODict d) =>
          let errs := unknown_fields rules d in
          (σ, Return (bool_decide (errs = []), errs))
      | _ => (σ, Raise (LibraryError "cerberus" "DocumentError"))
      end
  | _ => (σ, Raise (LibraryError "cerberus" "DocumentError"))
  end.

Definition show_errors (errs : list string) : string :=
  foldr (λ k acc, k +:+ ": unknown field; " +:+ acc) EmptyString errs.

Definition pick_fields (hook : value → value) (fields : list string) (d : items)
    : option items :=
  mapM (λ k, v ← dict_get d k; Some (k, hook v)) fields.

Definition build (fields : list string) (data : value)
    (config : option (dacite_Config (value → value))) : Py items := λ σ,
  let hook := match config with Some c => type_hooks c | None => id end in
  match data with
  | VRef l =>
      match σ !! l with
      | Some (ODict d) =>
          match pick_fields hook fields d with
          | Some obj => (σ, Return obj)
          | None => (σ, Raise (LibraryError "dacite" "MissingValueError"))
          end
      | _ => (σ, Raise (LibraryError "dacite" "WrongTypeError"))
      end
  | _ => (σ, Raise (LibraryError "dacite" "WrongTypeError"))
  end.

#[export] Instance collaborators : Collaborators := {|
  Path := string;
  data_class := list string;
  dataclass_instance := items;
  converter := value → value;
  validator := items;
  validator_errors := list string;
  read_yaml_into_dict := read;
  Validator := new_validator;
  Validator_validate := run_validator;
  str_errors := show_errors;
  from_dict := build
|}.

(** A heap holding a settings dictionary at 1 and a schema at 2. *)
Definition heap0 (settings schema : items) : heap :=
  <[2%positive := ODict schema]> (<[1%positive := ODict settings]> ∅).

End Demo.

(** ** A rule engine that expands the schema in place

    Building a Cerberus validator normalises the rule sets of the schema it
    is given: a shortcut such as `anyof_type: [integer, float]` is rewritten,
    in the caller's own dictionary, into `anyof: [{type: integer}, {type:
    float}]`. This instance has that one behaviour; its validation is the one
    of [Demo]. *)
Module Expanding.

Definition schema_error {A : Type} : Py A :=
  raise (LibraryError "cerberus" "SchemaError").

(** `x.startswith(('allof_', 'anyof_', 'noneof_', 'oneof_'))`, and then
    `operator, rule = x.split('_', 1)` *)
Definition of_rule (x : string) : option (string * string) :=
  head (omap (λ op : string,
                if String.prefix (op +:+ "_") x
                then Some (op, String.substring (S (String.length op))
                                 (String.length x - S (String.length op)) x)
                else None)
             ["allof"; "anyof"; "noneof"; "oneof"]).

(** `lst.append(x)` *)
Definition append (lst x : value) : Py unit := λ σ,
  match lst with
  | VRef l =>
      match σ !! l with
      | Some (OList xs) => (<[l := OList (xs ++ [x])]> σ, Return tt)
      | _ => schema_error σ
      end
  | _ => schema_error σ
  end.

(** `del rules[key]` *)
Definition delitem (rules : loc) (key : string) : Py unit := λ σ,
  match σ !! rules with
  | Some (ODict d) => (<[rules := ODict (filter (λ kv, kv.1 ≠ key) d)]> σ, Return tt)
  | _ => schema_error σ
  end.

(** One shortcut of one rule set:
    `rules.update({operator: []})`,
    `for value in rules[of_rule]: rules[operator].append({rule: value})`,
    `del rules[of_rule]`. *)
Definition expand_shortcut (rules : loc) (x operator rule : string) : Py unit :=
  lst ← Demo.alloc (OList []);
  setitem (VRef rules) operator lst ;;
  σ ← get_heap;
  match σ !! rules with
  | Some (ODict r) =>
      match dict_get r x with
      | Some (VRef lv) =>
          match σ !! lv with
          | Some (OList values) =>
              for_each values
                (λ value, d ← Demo.alloc (ODict [(rule, value)]); append lst d) ;;
              delitem rules x
          | _ => schema_error
          end
      | _ => schema_error
      end
  | _ => schema_error
  end.

(** `for field, rules in schema.items():`
    `    for of_rule in [x for x in rules if is_of_rule(x)]: ...` *)
Definition expand_logical_shortcuts (schema : value) : Py unit :=
  σ ← get_heap;
  match schema with
  | VRef l =>
      match σ !! l with
      | Some (ODict d) =>
          for_each d (λ field_rules,
            match field_rules.2 with
            | VRef lr =>
                σ ← get_heap;
                match σ !! lr with
                | Some (ODict r) =>
                    for_each (omap (λ x, pair x <$> of_rule x) r.*1)
                      (λ xo, expand_shortcut lr xo.1 xo.2.1 xo.2.2)
                | _ => schema_error
                end
            | _ => schema_error
            end)
      | _ => schema_error
      end
  | _ => schema_error
  end.

Definition new_validator (schema : value) : Py items :=
  expand_logical_shortcuts schema ;; Demo.new_validator schema.

Definition collaborators : Collaborators := {|
  Path := string;
  data_class := list string;
  dataclass_instance := items;
  converter := value → value;
  validator := items;
  validator_errors := list string;
  read_yaml_into_dict := Demo.read;
  Validator := new_validator;
  Validator_validate := Demo.run_validator;
  str_errors := Demo.show_errors;
  from_dict := Demo.build
|}.

(** Settings `{speed: 3}` at 1; schema `{speed: {anyof_type: [integer,
    float]}}` at 2, with its rule set at 3 and the list of types at 4. *)
Definition heap1 : heap :=
  <[4%positive := OList [VStr "integer"; VStr "float"]]>
    (<[3%positive := ODict [("anyof_type", VRef 4%positive)]]>
       (Demo.heap0 [("speed", VInt 3)] [("speed", VRef 3%positive)])).

End Expanding.

(** ** Dictionaries *)

Section dictionaries.
Implicit Types (d kw : items) (k : string) (v : value).

Lemma dict_get_setitem_eq d k v : dict_get (dict_setitem d k v) k = Some v.
Proof.
  induction d as [|[k' v'] d IH]; simpl.
  - by rewrite decide_True.
  - destruct (decide (k = k')) as [->|Hne]; simpl.
    + by rewrite decide_True.
    + by rewrite decide_False.
Qed.

Lemma dict_get_setitem_ne d k k' v :
  k ≠ k' → dict_get (dict_setitem d k v) k' = dict_get d k'.
Proof.
  intros Hne. induction d as [|[k0 v0] d IH]; simpl.
  - by rewrite decide_False.
  - destruct (decide (k = k0)) as [->|Hne0]; simpl.
    + by rewrite !decide_False.
    + by rewrite IH.
Qed.

(** An existing key keeps its place; a new key goes to the end. *)
Lemma dict_setitem_keys d k v :
  (dict_setitem d k v).*1 = if decide (k ∈ d.*1) then d.*1 else d.*1 ++ [k].
Proof.
  induction d as [|[k' v'] d IH].
  - rewrite decide_False; [done | apply not_elem_of_nil].
  - cbn [dict_setitem]. destruct (decide (k = k')) as [->|Hne].
    + rewrite decide_True; [done | apply list_elem_of_here].
    + rewrite !fmap_cons, IH. cbn [fst]. destruct (decide (k ∈ d.*1)) as [Hin|Hnin].
      * rewrite decide_True; [done | by apply list_elem_of_further].
      * rewrite decide_False; [done |].
        intros [?|?]%elem_of_cons; contradiction.
Qed.

Lemma dict_update_cons d k v kw :
  dict_update d ((k, v) :: kw) = dict_update (dict_setitem d k v) kw.
Proof. reflexivity. Qed.

(** Keys that are not overridden keep what they had. *)
Lemma dict_get_update_other kw d k :
  k ∉ kw.*1 → dict_get (dict_update d kw) k = dict_get d k.
Proof.
  revert d. induction kw as [|[k0 v0] kw IH]; intros d Hk; [done|].
  rewrite dict_update_cons. simpl in Hk.
  apply not_elem_of_cons in Hk as [Hne Hk].
  rewrite IH; [|done]. by apply dict_get_setitem_ne.
Qed.

(** Every overridden key holds its override. *)
Lemma dict_get_update kw d k v :
  NoDup kw.*1 → (k, v) ∈ kw → dict_get (dict_update d kw) k = Some v.
Proof.
  revert d. induction kw as [|[k0 v0] kw IH]; intros d Hnd Hin.
  - by apply elem_of_nil in Hin.
  - rewrite dict_update_cons. simpl in Hnd.
    apply NoDup_cons in Hnd as [Hk0 Hnd].
    apply elem_of_cons in Hin as [[= -> ->]|Hin].
    + rewrite dict_get_update_other; [|done]. apply dict_get_setitem_eq.
    + by apply IH.
Qed.

Example dict_setitem_replaces :
  dict_setitem [("a", VInt 1); ("b", VRef 5%positive)] "a" (VStr "x")
  = [("a", VStr "x"); ("b", VRef 5%positive)].
Proof. reflexivity. Qed.

Example dict_setitem_appends :
  dict_setitem [("a", VInt 1); ("b", VInt 2)] "c" VNone
  = [("a", VInt 1); ("b", VInt 2); ("c", VNone)].
Proof. reflexivity. Qed.

End dictionaries.

(** ** The effect monad *)

Lemma bind_return {A B : Type} (m : Py A) (k : A → Py B) σ σ' a :
  m σ = (σ', Return a) → (m ≫= k) σ = k a σ'.
Proof. intros H. unfold mbind, Py_bind. by rewrite H. Qed.

Lemma bind_raise {A B : Type} (m : Py A) (k : A → Py B) σ σ' e :
  m σ = (σ', Raise e) → (m ≫= k) σ = (σ', Raise e).
Proof. intros H. unfold mbind, Py_bind. by rewrite H. Qed.

(** What a sequence of two steps can do, read off its result. *)
Lemma bind_return_inv {A B : Type} (m : Py A) (k : A → Py B) σ σ' b :
  (m ≫= k) σ = (σ', Return b) →
  ∃ σ1 a, m σ = (σ1, Return a) ∧ k a σ1 = (σ', Return b).
Proof.
  unfold mbind, Py_bind. destruct (m σ) as [σ1 [a|e]]; [eauto | discriminate].
Qed.

Lemma bind_raise_inv {A B : Type} (m : Py A) (k : A → Py B) σ σ' e :
  (m ≫= k) σ = (σ', Raise e) →
  m σ = (σ', Raise e) ∨ ∃ σ1 a, m σ = (σ1, Return a) ∧ k a σ1 = (σ', Raise e).
Proof.
  unfold mbind, Py_bind. destruct (m σ) as [σ1 [a|e']]; [eauto|].
  intros [= -> ->]. by left.
Qed.

Lemma read_only_bind {A B : Type} (m : Py A) (k : A → Py B) :
  read_only m → (∀ a, read_only (k a)) → read_only (m ≫= k).
Proof.
  intros Hm Hk σ. unfold mbind, Py_bind.
  specialize (Hm σ). destruct (m σ) as [σ1 [a|e]]; simpl in *; subst; [|done].
  apply Hk.
Qed.

Lemma read_only_ret {A : Type} (a : A) : read_only (mret a : Py A).
Proof. by intros σ. Qed.

Lemma read_only_raise {A : Type} (e : exn) : read_only (raise e : Py A).
Proof. by intros σ. Qed.

Lemma setitem_dict l d k v σ :
  σ !! l = Some (ODict d) →
  setitem (VRef l) k v σ = (<[l := ODict (dict_setitem d k v)]> σ, Return tt).
Proof.
  intros Hl. unfold setitem. rewrite (bind_return _ _ σ σ σ); [|done].
  by rewrite Hl.
Qed.

(** The assignment loop on a dictionary writes every pair into it, in
    order, and touches nothing else. *)
Lemma for_each_setitem kw l d σ :
  σ !! l = Some (ODict d) →
  for_each kw (λ kv, setitem (VRef l) kv.1 kv.2) σ
  = (<[l := ODict (dict_update d kw)]> σ, Return tt).
Proof.
  revert d σ. induction kw as [|[k v] kw IH]; intros d σ Hl; cbn [for_each].
  - unfold mret, Py_ret. by rewrite insert_id.
  - erewrite bind_return; [|by apply setitem_dict].
    rewrite (IH (dict_setitem d k v)); [|by rewrite lookup_insert_eq].
    by rewrite insert_insert_eq.
Qed.

(** ** validate *)

Section validate_facts.
Context `{C : Collaborators}.

Lemma truthy_mapping σ l d :
  σ !! l = Some (ODict d) → truthy σ (VRef l) = bool_decide (d ≠ []).
Proof. intros Hl. unfold truthy. rewrite Hl. by destruct d. Qed.

Lemma validate_falsy_settings σ M S :
  truthy σ M = false →
  validate M S σ = (σ, Raise (ValueError "Empty settings!")).
Proof.
  intros HM. unfold validate. rewrite (bind_return _ _ σ σ σ); [|done].
  by rewrite HM.
Qed.

Lemma validate_falsy_schema σ M S :
  truthy σ M = true → truthy σ S = false →
  validate M S σ = (σ, Raise (ValueError "Empty schema!")).
Proof.
  intros HM HS. unfold validate. rewrite (bind_return _ _ σ σ σ); [|done].
  rewrite HM. cbn [negb]. rewrite (bind_return _ _ σ σ σ); [|done].
  by rewrite HS.
Qed.

(** With both arguments non-empty the outcome is that of the rule engine. *)
Lemma validate_engine σ M S :
  truthy σ M = true → truthy σ S = true →
  validate M S σ =
    (v ← Validator S;
     r ← Validator_validate v M;
     if negb r.1 then
       raise (ValueError ("Cerberus validation Error: " +:+ str_errors r.2))
     else mret tt) σ.
Proof.
  intros HM HS. unfold validate. rewrite (bind_return _ _ σ σ σ); [|done].
  rewrite HM. cbn [negb]. rewrite (bind_return _ _ σ σ σ); [|done].
  by rewrite HS.
Qed.

Lemma validate_read_only M S : engine_read_only → read_only (validate M S).
Proof.
  intros [Hnew Hrun] σ.
  destruct (truthy σ M) eqn:HM.
  - destruct (truthy σ S) eqn:HS.
    + rewrite validate_engine by done.
      apply read_only_bind; [apply Hnew|]. intros v.
      apply read_only_bind; [apply Hrun|]. intros [b errs]. cbn [fst snd].
      destruct b; [apply read_only_ret | apply read_only_raise].
    + by rewrite validate_falsy_schema.
  - by rewrite validate_falsy_settings.
Qed.

End validate_facts.

(** ** extract_valid_sections *)

Lemma collect_sections (ks acc : list string) :
  foldl (λ sections section, sections ++ [section]) acc ks = acc ++ ks.
Proof.
  revert acc. induction ks as [|k ks IH]; intros acc; simpl.
  - by rewrite app_nil_r.
  - rewrite IH. by rewrite <- app_assoc.
Qed.

Lemma extract_valid_sections_dict σ l d :
  σ !! l = Some (ODict d) →
  extract_valid_sections (VRef l) σ = (σ, Return d.*1).
Proof.
  intros Hl. unfold extract_valid_sections, keys.
  erewrite bind_return; cycle 1.
  { erewrite bind_return; [|done]. by rewrite Hl. }
  unfold mret, Py_ret. by rewrite collect_sections.
Qed.

(** * The claims *)

(** ** C1 *)

(** C1. The docstring of [extract_valid_sections] promises a [ValueError] on
    an empty schema, but the guard only tests [schema is None]: on the empty
    dictionary the function returns the empty list of sections and raises
    nothing. *)
Theorem extract_valid_sections_empty_schema :
  extract_valid_sections (VRef 2%positive) (Demo.heap0 [] [])
  = (Demo.heap0 [] [], Return []).
Proof. reflexivity. Qed.

(** ** C2 *)

(** C2. For mappings [M] and [S] of which at least one is empty,
    [validate] raises an empty-input [ValueError] that names an argument
    which is indeed empty, whatever the other argument holds, and leaves the
    heap as it was: it is the empty-settings error as soon as [M] is empty
    (the settings are tested first), and the empty-schema error when [S] is
    empty and [M] is not. *)
Theorem validate_empty_input `{C : Collaborators} σ M S dM dS :
  is_mapping σ M dM → is_mapping σ S dS → dM = [] ∨ dS = [] →
  ∃ msg, validate M S σ = (σ, Raise (ValueError msg)) ∧
    ((msg = "Empty settings!" ∧ dM = []) ∨ (msg = "Empty schema!" ∧ dS = [])) ∧
    (dM = [] → msg = "Empty settings!") ∧
    (dM ≠ [] → msg = "Empty schema!").
Proof.
  intros (lM & -> & HM) (lS & -> & HS) Hempty.
  destruct dM as [|kv dM].
  - exists "Empty settings!". split.
    + apply validate_falsy_settings. by rewrite (truthy_mapping _ _ []).
    + split; [by left|]. by split.
  - destruct Hempty as [Hnil|Hnil]; [done|]. subst dS.
    exists "Empty schema!". split.
    + apply validate_falsy_schema.
      * by rewrite (truthy_mapping _ _ (kv :: dM)).
      * by rewrite (truthy_mapping _ _ []).
    + split; [by right|]. by split.
Qed.

Lemma validate_empty_input_witness :
  ∃ msg,
    validate (C := Demo.collaborators) (VRef 1%positive) (VRef 2%positive)
      (Demo.heap0 [("speed", VInt 3)] [])
    = (Demo.heap0 [("speed", VInt 3)] [], Raise (ValueError msg)) ∧
    ((msg = "Empty settings!" ∧ [("speed", VInt 3)] = []) ∨
     (msg = "Empty schema!" ∧ @nil (string * value) = [])) ∧
    ([("speed", VInt 3)] = [] → msg = "Empty settings!") ∧
    ([("speed", VInt 3)] ≠ [] → msg = "Empty schema!").
Proof.
  apply (validate_empty_input (C := Demo.collaborators)).
  - exists 1%positive. split; reflexivity.
  - exists 2%positive. split; reflexivity.
  - by right.
Defined.

(** With both dictionaries empty it is the settings that are reported. *)
Example validate_both_empty :
  validate (C := Demo.collaborators) (VRef 1%positive) (VRef 2%positive)
    (Demo.heap0 [] [])
  = (Demo.heap0 [] [], Raise (ValueError "Empty settings!")).
Proof. reflexivity. Qed.

(** ** C3 *)

(** C3. On a non-empty schema dictionary [extract_valid_sections] returns
    the keys of the dictionary, in the order the dictionary holds them, and
    leaves the heap alone. *)
Theorem extract_valid_sections_keys σ S d :
  is_mapping σ S d → d ≠ [] →
  extract_valid_sections S σ = (σ, Return d.*1).
Proof. intros (l & -> & Hl) _. by apply extract_valid_sections_dict. Qed.

Lemma extract_valid_sections_keys_witness :
  extract_valid_sections (VRef 2%positive)
    (Demo.heap0 [] [("ship", VNone); ("colav", VNone); ("ais", VNone)])
  = (Demo.heap0 [] [("ship", VNone); ("colav", VNone); ("ais", VNone)],
     Return ["ship"; "colav"; "ais"]).
Proof.
  apply (extract_valid_sections_keys _ _
           [("ship", VNone); ("colav", VNone); ("ais", VNone)]).
  - exists 2%positive. split; reflexivity.
  - discriminate.
Defined.

(** ** C4 *)

(** C4. Without keyword overrides [override] returns the settings it was
    given and leaves the heap as it was, whatever the settings and the schema
    are and whatever the rule engine would say of them: the engine is not
    run, and nothing is raised. *)
Theorem override_no_kwargs `{C : Collaborators} (M S : value) (σ : heap) :
  override M S [] σ = (σ, Return M).
Proof. reflexivity. Qed.

(** ** override on a dictionary *)

Lemma override_mapping `{C : Collaborators} σ l d S kw :
  σ !! l = Some (ODict d) → kw ≠ [] →
  override (VRef l) S kw σ
  = (validate (VRef l) S ;; mret (VRef l)) (<[l := ODict (dict_update d kw)]> σ).
Proof.
  intros Hl Hkw. destruct kw as [|kv kw]; [done|]. unfold override.
  erewrite bind_return; [|by apply for_each_setitem]. reflexivity.
Qed.

Lemma demo_engine_read_only : engine_read_only (C := Demo.collaborators).
Proof.
  split.
  - intros schema σ. cbn. unfold Demo.new_validator.
    destruct schema; try done. by destruct (σ !! l) as [[]|].
  - intros v document σ. cbn. unfold Demo.run_validator.
    destruct document; try done. by destruct (σ !! l) as [[]|].
Qed.

(** ** C5 *)

(** C5. With at least one override, on a settings dictionary: [override]
    first writes the pairs into the dictionary itself, so that every
    overridden key holds its override (whatever it held before, and whether
    or not it was there) and every other key keeps its value; it then runs
    [validate] on that dictionary and the schema, returning the settings when
    [validate] returns and raising what [validate] raises. *)
Theorem override_writes_then_validates `{C : Collaborators} σ l d S kw :
  σ !! l = Some (ODict d) → kw ≠ [] → NoDup kw.*1 →
  let d' := dict_update d kw in
  let σ1 := <[l := ODict d']> σ in
  (∀ k v, (k, v) ∈ kw → dict_get d' k = Some v) ∧
  (∀ k, k ∉ kw.*1 → dict_get d' k = dict_get d k) ∧
  override (VRef l) S kw σ =
    match validate (VRef l) S σ1 with
    | (σ2, Return _) => (σ2, Return (VRef l))
    | (σ2, Raise e) => (σ2, Raise e)
    end.
Proof.
  intros Hl Hkw Hnd d' σ1. split; [|split].
  - intros k v Hin. by apply dict_get_update.
  - intros k Hk. by apply dict_get_update_other.
  - by rewrite (override_mapping σ l d).
Qed.

(** The case of the specification: the settings have no key [x], the schema
    has a rule for it, and [override(M, S, x=1)] returns the settings, which
    now hold [x: 1]. *)
Lemma override_writes_then_validates_witness :
  dict_get [("speed", VInt 3)] "x" = None ∧
  dict_get (dict_update [("speed", VInt 3)] [("x", VInt 1)]) "x" = Some (VInt 1) ∧
  override (C := Demo.collaborators) (VRef 1%positive) (VRef 2%positive)
    [("x", VInt 1)]
    (Demo.heap0 [("speed", VInt 3)] [("speed", VStr "integer"); ("x", VStr "integer")])
  = (Demo.heap0 [("speed", VInt 3); ("x", VInt 1)]
       [("speed", VStr "integer"); ("x", VStr "integer")],
     Return (VRef 1%positive)).
Proof.
  pose proof (override_writes_then_validates (C := Demo.collaborators)
    (Demo.heap0 [("speed", VInt 3)] [("speed", VStr "integer"); ("x", VStr "integer")])
    1%positive [("speed", VInt 3)] (VRef 2%positive) [("x", VInt 1)]) as H.
  destruct H as (Hget & _ & Hrun).
  - reflexivity.
  - discriminate.
  - apply NoDup_singleton.
  - split; [reflexivity|]. split.
    + apply Hget. apply list_elem_of_here.
    + rewrite Hrun. vm_compute. reflexivity.
Defined.

(** ** C6 *)



(** ** C7 *)

(** C7. For a non-empty settings dictionary and a non-empty schema
    dictionary, [validate] returns exactly when the rule engine accepts the
    settings under the schema; and when the engine rejects them, [validate]
    raises a [ValueError] whose message carries the engine's report. *)
Theorem validate_iff_satisfies `{C : Collaborators} σ M S dM dS :
  is_mapping σ M dM → dM ≠ [] → is_mapping σ S dS → dS ≠ [] →
  ((∃ σ', validate M S σ = (σ', Return tt)) ↔ satisfies σ M S) ∧
  (∀ errs, violates σ M S errs →
     ∃ σ', validate M S σ =
             (σ', Raise (ValueError ("Cerberus validation Error: " +:+ str_errors errs)))).
Proof.
  intros (lM & -> & HM) HdM (lS & -> & HS) HdS.
  rewrite validate_engine; cycle 1.
  { rewrite (truthy_mapping _ _ dM) by done. by apply bool_decide_eq_true. }
  { rewrite (truthy_mapping _ _ dS) by done. by apply bool_decide_eq_true. }
  split; [split|].
  - intros (σ' & (σ1 & v & Hnew & Hrest)%bind_return_inv).
    apply bind_return_inv in Hrest as (σ2 & [b errs] & Hrun & Hend).
    cbn [fst snd] in Hend. destruct b; [|discriminate].
    by exists v, σ1, σ2, errs.
  - intros (v & σ1 & σ2 & errs & Hnew & Hrun). exists σ2.
    erewrite bind_return by exact Hnew. erewrite bind_return by exact Hrun.
    reflexivity.
  - intros errs (v & σ1 & σ2 & Hnew & Hrun). exists σ2.
    erewrite bind_return by exact Hnew. erewrite bind_return by exact Hrun.
    reflexivity.
Qed.

Lemma validate_iff_satisfies_witness :
  ∃ σ', validate (C := Demo.collaborators) (VRef 1%positive) (VRef 2%positive)
          (Demo.heap0 [("colour", VStr "red")] [("speed", VStr "float")])
        = (σ', Raise (ValueError "Cerberus validation Error: colour: unknown field; ")).
Proof.
  refine (proj2 (validate_iff_satisfies (C := Demo.collaborators)
            (Demo.heap0 [("colour", VStr "red")] [("speed", VStr "float")])
            (VRef 1%positive) (VRef 2%positive)
            [("colour", VStr "red")] [("speed", VStr "float")] _ _ _ _)
          ["colour"] _).
  - exists 1%positive. split; reflexivity.
  - discriminate.
  - exists 2%positive. split; reflexivity.
  - discriminate.
  - eexists _, _, _. split; reflexivity.
Defined.

(** ** C8 *)

(** C8, as stated, fails: whether the settings and the schema survive a
    call of [validate] is decided by the rule engine, and an engine that
    expands the shortcuts of the schema in place, as Cerberus does, leaves
    the caller's schema rewritten although [validate] returns. *)
Lemma validate_rewrites_schema_counterexample :
  is_mapping Expanding.heap1 (VRef 1%positive) [("speed", VInt 3)] ∧
  is_mapping Expanding.heap1 (VRef 2%positive) [("speed", VRef 3%positive)] ∧
  Expanding.heap1 !! 3%positive = Some (ODict [("anyof_type", VRef 4%positive)]) ∧
  (validate (C := Expanding.collaborators) (VRef 1%positive) (VRef 2%positive)
     Expanding.heap1).2 = Return tt ∧
  (validate (C := Expanding.collaborators) (VRef 1%positive) (VRef 2%positive)
     Expanding.heap1).1 !! 3%positive = Some (ODict [("anyof", VRef 5%positive)]) ∧
  (validate (C := Expanding.collaborators) (VRef 1%positive) (VRef 2%positive)
     Expanding.heap1).1 ≠ Expanding.heap1.
Proof.
  split; [by exists 1%positive|]. split; [by exists 2%positive|].
  split; [reflexivity|]. split; [vm_compute; reflexivity|].
  split; [vm_compute; reflexivity|].
  intros Heq. apply (f_equal (λ σ : heap, σ !! 3%positive)) in Heq.
  vm_compute in Heq. discriminate.
Qed.

(** C8, amended. [validate] makes no write of its own. When the settings or
    the schema are empty it raises with the heap untouched, the rule engine
    not being called. Otherwise the heap it leaves is the heap left by the
    two calls to the rule engine, the construction of the validator and its
    run on the settings; so the settings and the schema are unchanged
    whenever the rule engine is read-only. *)
Theorem validate_no_own_write `{C : Collaborators} (M S : value) (σ : heap) :
  (truthy σ M = false ∨ truthy σ S = false → (validate M S σ).1 = σ) ∧
  (truthy σ M = true → truthy σ S = true →
   (validate M S σ).1 = ((Validator S ≫= λ v, Validator_validate v M) σ).1) ∧
  (engine_read_only → (validate M S σ).1 = σ).
Proof.
  split; [|split].
  - intros Hempty. destruct (truthy σ M) eqn:HM.
    + destruct Hempty as [?|HS]; [done|]. by rewrite validate_falsy_schema.
    + by rewrite validate_falsy_settings.
  - intros HM HS. rewrite validate_engine by done.
    unfold mbind, Py_bind. destruct (Validator S σ) as [σ1 [v|e]]; [|done].
    destruct (Validator_validate v M σ1) as [σ2 [[b errs]|e]]; [|done].
    by destruct b.
  - intros Hro. by apply validate_read_only.
Qed.

Lemma validate_no_own_write_witness :
  (validate (C := Demo.collaborators) (VRef 1%positive) (VRef 2%positive)
     (Demo.heap0 [] [("speed", VStr "float")])).1
  = Demo.heap0 [] [("speed", VStr "float")] ∧
  (validate (C := Expanding.collaborators) (VRef 1%positive) (VRef 2%positive)
     Expanding.heap1).1
  = ((Expanding.new_validator (VRef 2%positive)
        ≫= λ v, Demo.run_validator v (VRef 1%positive)) Expanding.heap1).1 ∧
  (validate (C := Demo.collaborators) (VRef 1%positive) (VRef 2%positive)
     (Demo.heap0 [("colour", VStr "red")] [("speed", VStr "float")])).1
  = Demo.heap0 [("colour", VStr "red")] [("speed", VStr "float")].
Proof.
  split; [|split].
  - apply (proj1 (validate_no_own_write (C := Demo.collaborators)
                    (VRef 1%positive) (VRef 2%positive)
                    (Demo.heap0 [] [("speed", VStr "float")]))).
    left. reflexivity.
  - apply (proj1 (proj2 (validate_no_own_write (C := Expanding.collaborators)
                           (VRef 1%positive) (VRef 2%positive) Expanding.heap1)));
      reflexivity.
  - apply (proj2 (proj2 (validate_no_own_write (C := Demo.collaborators)
                           (VRef 1%positive) (VRef 2%positive)
                           (Demo.heap0 [("colour", VStr "red")]
                              [("speed", VStr "float")])))).
    exact demo_engine_read_only.
Defined.

(** ** C10 *)

(** C10. With at least one override, when [override] on a settings
    dictionary raises, it is the re-validation that raised, on a heap in
    which the dictionary already holds every override; the rule engine being
    read-only, that is the heap the caller is left with. *)
Theorem override_not_atomic `{C : Collaborators} σ l d S kw σ' e :
  σ !! l = Some (ODict d) → kw ≠ [] → NoDup kw.*1 →
  override (VRef l) S kw σ = (σ', Raise e) →
  let d' := dict_update d kw in
  validate (VRef l) S (<[l := ODict d']> σ) = (σ', Raise e) ∧
  (∀ k v, (k, v) ∈ kw → dict_get d' k = Some v) ∧
  (engine_read_only → σ' !! l = Some (ODict d')).
Proof.
  intros Hl Hkw Hnd. rewrite (override_mapping σ l d) by done.
  intros Hrun. cbv zeta.
  apply bind_raise_inv in Hrun as [Hval|(σ2 & [] & _ & [=])].
  split; [done|]. split.
  - intros k v Hin. by apply dict_get_update.
  - intros Hro.
    pose proof (validate_read_only (VRef l) S Hro
                  (<[l := ODict (dict_update d kw)]> σ)) as Hσ.
    rewrite Hval in Hσ. cbn [fst] in Hσ. subst σ'. apply lookup_insert_eq.
Qed.

Lemma override_not_atomic_witness :
  validate (C := Demo.collaborators) (VRef 1%positive) (VRef 2%positive)
    (<[1%positive := ODict (dict_update [("speed", VInt 3)] [("colour", VStr "red")])]>
       (Demo.heap0 [("speed", VInt 3)] [("speed", VStr "integer")]))
  = (Demo.heap0 [("speed", VInt 3); ("colour", VStr "red")] [("speed", VStr "integer")],
     Raise (ValueError "Cerberus validation Error: colour: unknown field; ")) ∧
  dict_get (dict_update [("speed", VInt 3)] [("colour", VStr "red")]) "colour"
  = Some (VStr "red") ∧
  Demo.heap0 [("speed", VInt 3); ("colour", VStr "red")] [("speed", VStr "integer")]
    !! 1%positive
  = Some (ODict (dict_update [("speed", VInt 3)] [("colour", VStr "red")])).
Proof.
  destruct (override_not_atomic (C := Demo.collaborators)
              (Demo.heap0 [("speed", VInt 3)] [("speed", VStr "integer")])
              1%positive [("speed", VInt 3)] (VRef 2%positive)
              [("colour", VStr "red")]
              (Demo.heap0 [("speed", VInt 3); ("colour", VStr "red")]
                 [("speed", VStr "integer")])
              (ValueError "Cerberus validation Error: colour: unknown field; "))
    as (Hval & Hget & Hσ).
  - reflexivity.
  - discriminate.
  - apply NoDup_singleton.
  - vm_compute. reflexivity.
  - split; [exact Hval|]. split.
    + apply Hget. apply list_elem_of_here.
    + exact (Hσ demo_engine_read_only).
Defined.

(** ** C9 *)


(** Two runs of the pipeline: one that returns the converted object, and one
    in which the override is rejected by the re-validation. *)
Example extract_runs :
  (extract (C := Demo.collaborators) ["speed"; "name"] "config.yaml" "schema.yaml"
     None [("name", VStr "tug")] ∅).2
  = Return [("speed", VFloat (S754_finite false 3 (-1))); ("name", VStr "tug")].
Proof. vm_compute. reflexivity. Qed.

Example extract_rejects :
  (extract (C := Demo.collaborators) ["speed"] "config.yaml" "schema.yaml"
     None [("colour", VStr "red")] ∅).2
  = Raise (ValueError "Cerberus validation Error: colour: unknown field; ").
Proof. vm_compute. reflexivity. Qed.

(** * Further properties of the module *)

(** ** More on dictionaries *)

Lemma dict_setitem_same (d : items) k v :
  dict_get d k = Some v → dict_setitem d k v = d.
Proof.
  induction d as [|[k' v'] d IH]; cbn [dict_get dict_setitem]; [done|].
  destruct (decide (k = k')) as [->|Hne].
  - by intros [= ->].
  - intros Hget. by rewrite IH.
Qed.

(** Writing pairs that the dictionary already holds changes nothing. *)
Lemma dict_update_same (kw d : items) :
  (∀ k v, (k, v) ∈ kw → dict_get d k = Some v) → dict_update d kw = d.
Proof.
  induction kw as [|[k v] kw IH]; intros Hall; [done|].
  rewrite dict_update_cons, dict_setitem_same.
  - apply IH. intros k' v' Hin. apply Hall. by apply list_elem_of_further.
  - apply Hall. apply list_elem_of_here.
Qed.

Lemma dict_update_idem (kw d : items) :
  NoDup kw.*1 → dict_update (dict_update d kw) kw = dict_update d kw.
Proof.
  intros Hnd. apply dict_update_same. intros k v Hin. by apply dict_get_update.
Qed.

Lemma dict_setitem_NoDup (d : items) k v :
  NoDup d.*1 → NoDup (dict_setitem d k v).*1.
Proof.
  intros Hnd. rewrite dict_setitem_keys. destruct (decide (k ∈ d.*1)); [done|].
  apply NoDup_app. split; [done|]. split.
  - intros k' Hk' ->%list_elem_of_singleton. contradiction.
  - apply NoDup_singleton.
Qed.

Lemma dict_update_NoDup (kw d : items) :
  NoDup d.*1 → NoDup (dict_update d kw).*1.
Proof.
  revert d. induction kw as [|[k v] kw IH]; intros d Hnd; [done|].
  rewrite dict_update_cons. by apply IH, dict_setitem_NoDup.
Qed.

Lemma filter_agree {A : Type} (P Q : A → Prop)
    `{!∀ x, Decision (P x)} `{!∀ x, Decision (Q x)} (l : list A) :
  (∀ x, x ∈ l → P x ↔ Q x) → filter P l = filter Q l.
Proof.
  induction l as [|x l IH]; intros Hagree; [done|].
  rewrite !filter_cons.
  rewrite IH by (intros y Hy; apply Hagree; by apply list_elem_of_further).
  destruct (decide (P x)) as [HP|HP], (decide (Q x)) as [HQ|HQ]; try done.
  - destruct HQ. by apply (Hagree x (list_elem_of_here _ _)).
  - destruct HP. by apply (Hagree x (list_elem_of_here _ _)).
Qed.

(** The keys after an update: the old keys where they were, then the new
    ones in the order of the update. *)
Lemma dict_update_keys (kw d : items) :
  NoDup kw.*1 →
  (dict_update d kw).*1 = d.*1 ++ filter (λ k, k ∉ d.*1) kw.*1.
Proof.
  revert d. induction kw as [|[k v] kw IH]; intros d Hnd.
  - cbn. by rewrite app_nil_r.
  - rewrite dict_update_cons. rewrite fmap_cons in Hnd. cbn [fst] in Hnd.
    apply NoDup_cons in Hnd as [Hk Hnd].
    rewrite IH by done. rewrite dict_setitem_keys, fmap_cons. cbn [fst].
    destruct (decide (k ∈ d.*1)) as [Hin|Hnin].
    + rewrite filter_cons_False; [done|]. by intros ?.
    + rewrite filter_cons_True by done. rewrite <- app_assoc. cbn [app].
      f_equal. f_equal. apply filter_agree.
      intros k' Hk'. rewrite elem_of_app, list_elem_of_singleton.
      split; [tauto|]. intros Hk'd [?| ->]; [done|]. contradiction.
Qed.

(** ** More on the steps of the module *)

Section more_facts.
Context `{C : Collaborators}.

(** What a returning [validate] has checked. *)
Lemma validate_return_inv M S σ σ' u :
  validate M S σ = (σ', Return u) →
  truthy σ M = true ∧ truthy σ S = true ∧ satisfies σ M S.
Proof.
  intros Hrun. destruct (truthy σ M) eqn:HM; cycle 1.
  { by rewrite validate_falsy_settings in Hrun. }
  destruct (truthy σ S) eqn:HS; cycle 1.
  { by rewrite validate_falsy_schema in Hrun. }
  rewrite validate_engine in Hrun by done.
  apply bind_return_inv in Hrun as (σ1 & v & Hnew & Hrun).
  apply bind_return_inv in Hrun as (σ2 & [b errs] & Hcheck & Hend).
  cbn [fst snd] in Hend. destruct b; [|discriminate].
  split; [done|]. split; [done|]. by exists v, σ1, σ2, errs.
Qed.

(** The first assignment to something that is not a dictionary raises. *)
Lemma setitem_non_mapping M k v σ :
  (∀ d, ¬ is_mapping σ M d) →
  ∃ msg, setitem M k v σ = (σ, Raise (TypeError msg)).
Proof.
  intros Hnot. unfold setitem. rewrite (bind_return _ _ σ σ σ); [|done].
  destruct M as [| | | | |l]; try by eexists.
  destruct (σ !! l) as [[d|xs]|] eqn:Hl; try by eexists.
  destruct (Hnot d). by exists l.
Qed.

Lemma override_non_mapping_raises M S kw σ :
  kw ≠ [] → (∀ d, ¬ is_mapping σ M d) →
  ∃ msg, override M S kw σ = (σ, Raise (TypeError msg)).
Proof.
  intros Hkw Hnot. destruct kw as [|[k v] kw]; [done|].
  destruct (setitem_non_mapping M k v σ Hnot) as [msg Hset].
  exists msg. unfold override. cbn [for_each].
  erewrite bind_raise; [done|]. erewrite bind_raise; [done|]. exact Hset.
Qed.

(** The heap that [override] leaves behind, whatever the outcome. *)
Lemma override_heap σ l d S kw :
  σ !! l = Some (ODict d) → engine_read_only →
  (override (VRef l) S kw σ).1 = <[l := ODict (dict_update d kw)]> σ.
Proof.
  intros Hl Hro. destruct kw as [|kv kw].
  - cbn. by rewrite insert_id.
  - rewrite (override_mapping σ l d) by done.
    apply read_only_bind; [by apply validate_read_only|].
    intros []. apply read_only_ret.
Qed.

(** A returning [override] hands back its argument; and either there was
    nothing to override and the heap is as it was, or the argument is a
    dictionary and it is its re-validation, on the heap where the overrides
    are written, that returned. *)
Lemma override_return_inv M S kw σ σ' r :
  override M S kw σ = (σ', Return r) →
  r = M ∧
  ((kw = [] ∧ σ' = σ) ∨
   (kw ≠ [] ∧ ∃ l d, M = VRef l ∧ σ !! l = Some (ODict d) ∧
      validate M S (<[l := ODict (dict_update d kw)]> σ) = (σ', Return tt))).
Proof.
  intros Hrun. destruct kw as [|kv kw].
  { injection Hrun as <- <-. split; [done|]. by left. }
  assert ((∃ l d, M = VRef l ∧ σ !! l = Some (ODict d)) ∨ ∀ d, ¬ is_mapping σ M d)
    as [(l & d & -> & Hl)|Hnot].
  { destruct M as [| | | | |l]; try (right; by intros d (? & [=] & _)).
    destruct (σ !! l) as [[d|xs]|] eqn:Hl.
    - left. by exists l, d.
    - right. intros d (? & [= <-] & ?). congruence.
    - right. intros d (? & [= <-] & ?). congruence. }
  - rewrite (override_mapping σ l d) in Hrun by done.
    apply bind_return_inv in Hrun as (σ2 & [] & Hval & [= <- <-]).
    split; [done|]. right. split; [done|]. by exists l, d.
  - destruct (override_non_mapping_raises M S (kv :: kw) σ) as [msg Hmsg];
      [done|done|]. congruence.
Qed.

End more_facts.

(** ** X1 *)

(** X1. [extract_valid_sections] never writes to the heap; on [None] it
    raises the [ValueError] of its guard; and whenever it raises, its
    argument was [None] or was no dictionary at all (the failure then being
    the [AttributeError] of the missing [keys]): on a dictionary it never
    raises. *)
Theorem extract_valid_sections_raises_only (S : value) (σ : heap) :
  (extract_valid_sections S σ).1 = σ ∧
  (extract_valid_sections VNone σ).2
    = Raise (ValueError "No configuration schema provided!") ∧
  ∀ e, (extract_valid_sections S σ).2 = Raise e →
    S = VNone ∨ ((∀ d, ¬ is_mapping σ S d) ∧ ∃ msg, e = AttributeError msg).
Proof.
  split; [|split; [done|]].
  - destruct S as [| | | | |l]; try done.
    unfold extract_valid_sections, keys, mbind, Py_bind, get_heap.
    by destruct (σ !! l) as [[d|xs]|].
  - intros e. destruct S as [| | | | |l]; [by left|..]; intros He; right.
    1-4: split; [by intros d (? & [=] & _) | injection He as <-; by eexists].
    destruct (σ !! l) as [[d|xs]|] eqn:Hl.
    + by rewrite (extract_valid_sections_dict σ l d) in He.
    + split; [intros d (? & [= <-] & ?); congruence|].
      unfold extract_valid_sections, keys, mbind, Py_bind, get_heap in He.
      rewrite Hl in He. injection He as <-. by eexists.
    + split; [intros d (? & [= <-] & ?); congruence|].
      unfold extract_valid_sections, keys, mbind, Py_bind, get_heap in He.
      rewrite Hl in He. injection He as <-. by eexists.
Qed.

Lemma extract_valid_sections_raises_only_witness :
  (∀ d, ¬ is_mapping (Demo.heap0 [] []) (VStr "ship") d) ∧
  ∃ msg, AttributeError "'str' object has no attribute 'keys'" = AttributeError msg.
Proof.
  destruct (extract_valid_sections_raises_only (VStr "ship") (Demo.heap0 [] []))
    as (_ & _ & Hraise).
  destruct (Hraise (AttributeError "'str' object has no attribute 'keys'") eq_refl)
    as [[=]|H].
  exact H.
Defined.

(** ** X2 *)

(** X2. When the reader gives [None] or an empty dictionary for the settings
    file, [parse] raises the empty-settings [ValueError] on the heap the
    reader left, whatever the schema is; the rule engine plays no part. *)
Theorem parse_empty_file `{C : Collaborators} file_name S σ σ1 M :
  read_yaml_into_dict file_name σ = (σ1, Return M) →
  M = VNone ∨ is_mapping σ1 M [] →
  parse file_name S σ = (σ1, Raise (ValueError "Empty settings!")).
Proof.
  intros Hread Hempty. unfold parse. erewrite bind_return by exact Hread.
  erewrite bind_raise; [done|]. apply validate_falsy_settings.
  destruct Hempty as [->|(l & -> & Hl)]; [done|].
  by rewrite (truthy_mapping _ _ []).
Qed.

Lemma parse_empty_file_witness :
  parse (C := Demo.collaborators) "empty.yaml" (VRef 2%positive)
    (Demo.heap0 [] [("speed", VStr "float")])
  = (<[3%positive := ODict []]> (Demo.heap0 [] [("speed", VStr "float")]),
     Raise (ValueError "Empty settings!")).
Proof.
  apply (parse_empty_file (C := Demo.collaborators) "empty.yaml" _ _ _ (VRef 3%positive)).
  - vm_compute. reflexivity.
  - right. exists 3%positive. split; reflexivity.
Defined.

(** ** X3 *)

(** X3. Whenever [parse] returns, what it returns is the value the reader
    produced; that value and the schema are non-empty and the rule engine
    accepted the one under the other; and, the engine being read-only, the
    heap is the one the reader left. *)
Theorem parse_returns_validated `{C : Collaborators} file_name S σ σ' r :
  parse file_name S σ = (σ', Return r) →
  ∃ σ1, read_yaml_into_dict file_name σ = (σ1, Return r) ∧
    truthy σ1 r = true ∧ truthy σ1 S = true ∧ satisfies σ1 r S ∧
    (engine_read_only → σ' = σ1).
Proof.
  unfold parse. intros (σ1 & M & Hread & Hrest)%bind_return_inv.
  apply bind_return_inv in Hrest as (σ2 & u & Hval & [= <- <-]).
  exists σ1. split; [done|].
  destruct (validate_return_inv _ _ _ _ _ Hval) as (HM & HS & Hsat).
  repeat (split; [done|]). intros Hro.
  pose proof (validate_read_only M S Hro σ1) as Hσ. by rewrite Hval in Hσ.
Qed.

Lemma parse_returns_validated_witness :
  ∃ σ1, read_yaml_into_dict (Collaborators := Demo.collaborators) "config.yaml"
          (<[1%positive := ODict [("speed", VStr "float")]]> ∅)
        = (σ1, Return (VRef 2%positive)) ∧
    truthy σ1 (VRef 2%positive) = true ∧ truthy σ1 (VRef 1%positive) = true ∧
    satisfies (C := Demo.collaborators) σ1 (VRef 2%positive) (VRef 1%positive) ∧
    <[2%positive := ODict [("speed", VFloat (S754_finite false 3 (-1)))]]>
      (<[1%positive := ODict [("speed", VStr "float")]]> ∅)
    = σ1.
Proof.
  destruct (parse_returns_validated (C := Demo.collaborators) "config.yaml"
              (VRef 1%positive)
              (<[1%positive := ODict [("speed", VStr "float")]]> ∅)
              (<[2%positive := ODict [("speed", VFloat (S754_finite false 3 (-1)))]]>
                 (<[1%positive := ODict [("speed", VStr "float")]]> ∅))
              (VRef 2%positive))
    as (σ1 & Hread & HM & HS & Hsat & Hσ).
  - vm_compute. reflexivity.
  - exists σ1. repeat (split; [assumption|]). exact (Hσ demo_engine_read_only).
Defined.

(** ** X4 *)

(** X4. Where the exceptions of [validate] come from. If [validate] raises,
    then either the settings are empty and it is the empty-settings
    [ValueError], or the schema is empty and it is the empty-schema one, or
    the rule engine rejected the settings and it is the [ValueError] with the
    engine's report, or the exception is one that the construction of the
    validator or its run raised itself. *)
Theorem validate_raises_only `{C : Collaborators} M S σ σ' e :
  validate M S σ = (σ', Raise e) →
  (truthy σ M = false ∧ e = ValueError "Empty settings!") ∨
  (truthy σ M = true ∧ truthy σ S = false ∧ e = ValueError "Empty schema!") ∨
  (∃ errs, violates σ M S errs ∧
     e = ValueError ("Cerberus validation Error: " +:+ str_errors errs)) ∨
  Validator S σ = (σ', Raise e) ∨
  (∃ v σ1, Validator S σ = (σ1, Return v) ∧
     Validator_validate v M σ1 = (σ', Raise e)).
Proof.
  intros Hrun. destruct (truthy σ M) eqn:HM; cycle 1.
  { rewrite validate_falsy_settings in Hrun by done.
    injection Hrun as <- <-. by left. }
  destruct (truthy σ S) eqn:HS; cycle 1.
  { rewrite validate_falsy_schema in Hrun by done.
    injection Hrun as <- <-. right; by left. }
  rewrite validate_engine in Hrun by done. right; right.
  apply bind_raise_inv in Hrun as [Hnew|(σ1 & v & Hnew & Hrun)];
    [right; by left|].
  apply bind_raise_inv in Hrun as [Hcheck|(σ2 & [b errs] & Hcheck & Hend)].
  { right; right. by exists v, σ1. }
  cbn [fst snd] in Hend. destruct b; [discriminate|].
  injection Hend as <- <-. left. exists errs. split; [|done].
  by exists v, σ1, σ2.
Qed.

Lemma validate_raises_only_witness :
  ∃ errs, violates (C := Demo.collaborators)
            (Demo.heap0 [("colour", VStr "red")] [("speed", VStr "float")])
            (VRef 1%positive) (VRef 2%positive) errs ∧
    ValueError "Cerberus validation Error: colour: unknown field; "
    = ValueError ("Cerberus validation Error: " +:+ Demo.show_errors errs).
Proof.
  destruct (validate_raises_only (C := Demo.collaborators)
              (VRef 1%positive) (VRef 2%positive)
              (Demo.heap0 [("colour", VStr "red")] [("speed", VStr "float")])
              (Demo.heap0 [("colour", VStr "red")] [("speed", VStr "float")])
              (ValueError "Cerberus validation Error: colour: unknown field; "))
    as [[H _]|[(_ & H & _)|[H|[H|(v & σ1 & Hnew & H)]]]].
  - vm_compute. reflexivity.
  - vm_compute in H. discriminate.
  - vm_compute in H. discriminate.
  - exact H.
  - vm_compute in H. discriminate.
  - vm_compute in Hnew. injection Hnew as <- <-.
    vm_compute in H. discriminate.
Defined.

(** ** X5 *)

(** X5. With at least one override, [override] on settings that are not a
    dictionary ([None], a scalar, a list) raises a [TypeError] at the first
    assignment: the heap is untouched and the settings are never validated. *)
Theorem override_non_mapping `{C : Collaborators} M S kw σ :
  kw ≠ [] → (∀ d, ¬ is_mapping σ M d) →
  ∃ msg, override M S kw σ = (σ, Raise (TypeError msg)).
Proof. apply override_non_mapping_raises. Qed.

Lemma override_non_mapping_witness :
  ∃ msg, override (C := Demo.collaborators) VNone (VRef 2%positive)
           [("speed", VInt 3)] (Demo.heap0 [] [("speed", VStr "integer")])
         = (Demo.heap0 [] [("speed", VStr "integer")], Raise (TypeError msg)).
Proof.
  apply (override_non_mapping (C := Demo.collaborators)).
  - discriminate.
  - intros d (l & [=] & _).
Defined.

(** ** X6 *)

(** X6. [override] on a settings dictionary touches no other object: the
    rule engine being read-only, every other location of the heap (the
    schema, when it is another object) holds after the call what it held
    before, whether the call returns or raises and whatever the overrides. *)
Theorem override_frame `{C : Collaborators} σ l d S kw l' :
  σ !! l = Some (ODict d) → engine_read_only → l' ≠ l →
  (override (VRef l) S kw σ).1 !! l' = σ !! l'.
Proof.
  intros Hl Hro Hne. rewrite (override_heap σ l d) by done.
  by apply lookup_insert_ne.
Qed.

Lemma override_frame_witness :
  (override (C := Demo.collaborators) (VRef 1%positive) (VRef 2%positive)
     [("colour", VStr "red")]
     (Demo.heap0 [("speed", VInt 3)] [("speed", VStr "integer")])).1 !! 2%positive
  = Demo.heap0 [("speed", VInt 3)] [("speed", VStr "integer")] !! 2%positive.
Proof.
  apply (override_frame (C := Demo.collaborators) _ 1%positive [("speed", VInt 3)]).
  - reflexivity.
  - exact demo_engine_read_only.
  - discriminate.
Defined.

(** ** X7 *)

(** X7. [override] keeps the shape of the settings dictionary: the rule
    engine being read-only, after the call (returning or raising) the
    dictionary has its old keys in their old order, followed by the override
    keys it did not have, in the order of the overrides; no key is lost, and
    if the keys were distinct they still are. *)
Theorem override_keeps_key_order `{C : Collaborators} σ l d S kw :
  σ !! l = Some (ODict d) → NoDup kw.*1 → engine_read_only →
  ∃ d', (override (VRef l) S kw σ).1 !! l = Some (ODict d') ∧
    d'.*1 = d.*1 ++ filter (λ k, k ∉ d.*1) kw.*1 ∧
    (NoDup d.*1 → NoDup d'.*1).
Proof.
  intros Hl Hnd Hro. exists (dict_update d kw).
  rewrite (override_heap σ l d) by done. split; [apply lookup_insert_eq|].
  split; [by apply dict_update_keys | apply dict_update_NoDup].
Qed.

Lemma override_keeps_key_order_witness :
  ∃ d', (override (C := Demo.collaborators) (VRef 1%positive) (VRef 2%positive)
           [("name", VStr "tug"); ("speed", VInt 7); ("colour", VStr "red")]
           (Demo.heap0 [("speed", VInt 3); ("draft", VInt 2)] [])).1 !! 1%positive
        = Some (ODict d') ∧
    d'.*1 = ["speed"; "draft"] ++ ["name"; "colour"] ∧
    (NoDup ["speed"; "draft"] → NoDup d'.*1).
Proof.
  apply (override_keeps_key_order (C := Demo.collaborators)
           (Demo.heap0 [("speed", VInt 3); ("draft", VInt 2)] [])
           1%positive [("speed", VInt 3); ("draft", VInt 2)] (VRef 2%positive)
           [("name", VStr "tug"); ("speed", VInt 7); ("colour", VStr "red")]).
  - reflexivity.
  - apply (bool_decide_unpack _). vm_compute. exact I.
  - exact demo_engine_read_only.
Defined.

(** ** X8 *)

(** X8. Overriding twice with the same keyword arguments is overriding
    once: the rule engine being read-only, a second call of [override] on the
    heap the first one left has the outcome of the first and leaves that
    heap as it is. *)
Theorem override_twice `{C : Collaborators} σ l d S kw σ1 r :
  σ !! l = Some (ODict d) → NoDup kw.*1 → engine_read_only →
  override (VRef l) S kw σ = (σ1, r) →
  override (VRef l) S kw σ1 = (σ1, r).
Proof.
  intros Hl Hnd Hro Hrun.
  pose proof (override_heap σ l d S kw Hl Hro) as Hσ1.
  rewrite Hrun in Hσ1. cbn [fst] in Hσ1.
  destruct kw as [|kv kw].
  { injection Hrun as <- <-. reflexivity. }
  assert (σ1 !! l = Some (ODict (dict_update d (kv :: kw)))) as Hl1.
  { rewrite Hσ1. apply lookup_insert_eq. }
  rewrite (override_mapping σ l d) in Hrun by done.
  rewrite (override_mapping σ1 l _ S (kv :: kw) Hl1) by done.
  rewrite dict_update_idem by done.
  rewrite (insert_id σ1) by done. rewrite <- Hσ1 in Hrun. exact Hrun.
Qed.

Lemma override_twice_witness :
  override (C := Demo.collaborators) (VRef 1%positive) (VRef 2%positive)
    [("speed", VInt 7); ("name", VStr "tug")]
    (Demo.heap0 [("speed", VInt 7); ("name", VStr "tug")]
       [("speed", VNone); ("name", VNone)])
  = (Demo.heap0 [("speed", VInt 7); ("name", VStr "tug")]
       [("speed", VNone); ("name", VNone)],
     Return (VRef 1%positive)).
Proof.
  apply (override_twice (C := Demo.collaborators)
           (Demo.heap0 [("speed", VInt 3)] [("speed", VNone); ("name", VNone)])
           1%positive [("speed", VInt 3)]).
  - reflexivity.
  - apply (bool_decide_unpack _). vm_compute. exact I.
  - exact demo_engine_read_only.
  - vm_compute. reflexivity.
Defined.

(** ** X9 *)

(** X9. Empty files stop [extract] before any override or conversion. Once
    both files are read: if the settings are empty ([None] or an empty
    dictionary), [extract] raises the empty-settings [ValueError]; if they
    are not but the schema is empty, it raises the empty-schema one. In both
    cases the heap is the one the two reads left. *)
Theorem extract_empty_files `{C : Collaborators}
    dc config_file config_schema conv kwargs σ schema σ1 settings σ2 :
  read_yaml_into_dict config_schema σ = (σ1, Return schema) →
  read_yaml_into_dict config_file σ1 = (σ2, Return settings) →
  (truthy σ2 settings = false →
   extract dc config_file config_schema conv kwargs σ
   = (σ2, Raise (ValueError "Empty settings!"))) ∧
  (truthy σ2 settings = true → truthy σ2 schema = false →
   extract dc config_file config_schema conv kwargs σ
   = (σ2, Raise (ValueError "Empty schema!"))).
Proof.
  intros Hschema Hread. unfold extract, parse.
  erewrite bind_return by exact Hschema. split.
  - intros HM. erewrite bind_raise; [done|].
    erewrite bind_return by exact Hread.
    erewrite bind_raise; [done|]. by apply validate_falsy_settings.
  - intros HM HS. erewrite bind_raise; [done|].
    erewrite bind_return by exact Hread.
    erewrite bind_raise; [done|]. by apply validate_falsy_schema.
Qed.

Lemma extract_empty_files_witness :
  extract (C := Demo.collaborators) ["speed"] "config.yaml" "empty.yaml" None
    [("speed", VInt 7)] ∅
  = (<[2%positive := ODict [("speed", VFloat (S754_finite false 3 (-1)))]]>
       (<[1%positive := ODict []]> ∅),
     Raise (ValueError "Empty schema!")).
Proof.
  refine (proj2 (extract_empty_files (C := Demo.collaborators)
            ["speed"] "config.yaml" "empty.yaml" None [("speed", VInt 7)] ∅
            (VRef 1%positive) (<[1%positive := ODict []]> ∅)
            (VRef 2%positive) _ _ _) _ _).
  - vm_compute. reflexivity.
  - vm_compute. reflexivity.
  - reflexivity.
  - reflexivity.
Defined.

(** ** X10 *)

(** X10. [extract] converts only what it has validated. Whenever [extract]
    returns, the value the reader produced for the settings file was
    validated against the schema on the heap the two reads left. Without
    overrides the conversion is run on that very value and on the heap this
    validation left. With overrides that value is a dictionary, the overrides
    are written into it on the heap the first validation left, the
    dictionary so updated is validated again, and the conversion is run on
    that same value and on the heap the re-validation left. *)
Theorem extract_converts_validated `{C : Collaborators}
    dc config_file config_schema conv kwargs σ σ' obj :
  extract dc config_file config_schema conv kwargs σ = (σ', Return obj) →
  ∃ schema σ1 settings σ2 σ3,
    read_yaml_into_dict config_schema σ = (σ1, Return schema) ∧
    read_yaml_into_dict config_file σ1 = (σ2, Return settings) ∧
    validate settings schema σ2 = (σ3, Return tt) ∧
    ((kwargs = [] ∧
      convert_settings_dict_to_dataclass dc settings conv σ3 = (σ', Return obj)) ∨
     (kwargs ≠ [] ∧ ∃ l d σ4,
        settings = VRef l ∧ σ3 !! l = Some (ODict d) ∧
        validate settings schema (<[l := ODict (dict_update d kwargs)]> σ3)
        = (σ4, Return tt) ∧
        convert_settings_dict_to_dataclass dc settings conv σ4 = (σ', Return obj))).
Proof.
  unfold extract, parse.
  intros (σ1 & schema & Hschema & H)%bind_return_inv.
  apply bind_return_inv in H as (σ3 & settings & Hparse & H).
  apply bind_return_inv in Hparse as (σ2 & settings0 & Hread & Hparse).
  apply bind_return_inv in Hparse as (σ3' & [] & Hval & [= <- <-]).
  apply bind_return_inv in H as (σ4 & settings' & Hover & H).
  apply bind_return_inv in H as (σ5 & obj' & Hconv & [= <- <-]).
  exists schema, σ1, settings0, σ2, σ3'. repeat (split; [done|]).
  apply override_return_inv in Hover
    as [-> [[-> ->]|(Hkw & l & d & -> & Hl & Hre)]].
  - by left.
  - right. split; [done|]. by exists l, d, σ4.
Qed.

Lemma extract_converts_validated_witness :
  ∃ schema σ1 settings σ2 σ3,
    read_yaml_into_dict (Collaborators := Demo.collaborators) "schema.yaml" ∅
    = (σ1, Return schema) ∧
    read_yaml_into_dict (Collaborators := Demo.collaborators) "config.yaml" σ1
    = (σ2, Return settings) ∧
    validate (C := Demo.collaborators) settings schema σ2 = (σ3, Return tt) ∧
    (([("name", VStr "tug")] = [] ∧
      convert_settings_dict_to_dataclass (C := Demo.collaborators)
        ["speed"; "name"] settings None σ3
      = (<[2%positive := ODict [("speed", VFloat (S754_finite false 3 (-1)));
                                ("name", VStr "tug")]]>
           (<[1%positive := ODict [("speed", VStr "float");
                                   ("name", VStr "string")]]> ∅),
         Return [("speed", VFloat (S754_finite false 3 (-1)));
                 ("name", VStr "tug")])) ∨
     ([("name", VStr "tug")] ≠ [] ∧ ∃ l d σ4,
        settings = VRef l ∧ σ3 !! l = Some (ODict d) ∧
        validate (C := Demo.collaborators) settings schema
          (<[l := ODict (dict_update d [("name", VStr "tug")])]> σ3)
        = (σ4, Return tt) ∧
        convert_settings_dict_to_dataclass (C := Demo.collaborators)
          ["speed"; "name"] settings None σ4
        = (<[2%positive := ODict [("speed", VFloat (S754_finite false 3 (-1)));
                                  ("name", VStr "tug")]]>
             (<[1%positive := ODict [("speed", VStr "float");
                                     ("name", VStr "string")]]> ∅),
           Return [("speed", VFloat (S754_finite false 3 (-1)));
                   ("name", VStr "tug")]))).
Proof.
  apply (extract_converts_validated (C := Demo.collaborators)
           ["speed"; "name"] "config.yaml" "schema.yaml" None
           [("name", VStr "tug")] ∅).
  vm_compute. reflexivity.
Defined.

(** ** X11 *)

Lemma dict_setitem_length (d : items) k v :
  (List.length d ≤ List.length (dict_setitem d k v))%nat ∧
  (0 < List.length (dict_setitem d k v))%nat.
Proof.
  induction d as [|[k' v'] d [IH _]]; cbn [dict_setitem List.length]; [lia|].
  destruct (decide (k = k')); cbn [List.length]; lia.
Qed.

Lemma dict_update_length (kw d : items) :
  (List.length d ≤ List.length (dict_update d kw))%nat.
Proof.
  revert d. induction kw as [|[k v] kw IH]; intros d; [done|].
  rewrite dict_update_cons. etrans; [|apply IH]. apply dict_setitem_length.
Qed.

Lemma dict_update_nonempty (kw d : items) : kw ≠ [] → dict_update d kw ≠ [].
Proof.
  destruct kw as [|[k v] kw]; [done|]. intros _ Hnil.
  pose proof (dict_update_length kw (dict_setitem d k v)) as Hlen.
  rewrite <- dict_update_cons, Hnil in Hlen.
  pose proof (dict_setitem_length d k v) as [_ Hpos].
  cbn [List.length] in Hlen. lia.
Qed.

(** X11. Overrides fill an empty settings dictionary before it is checked.
    With at least one override, on a settings dictionary (empty or not) and
    an empty schema ([None], or an empty dictionary that is another object),
    [override] raises the empty-schema [ValueError], never the
    empty-settings one, and leaves the overrides written in the settings. *)
Theorem override_empty_schema `{C : Collaborators} σ l d S kw :
  σ !! l = Some (ODict d) → kw ≠ [] →
  S = VNone ∨ (S ≠ VRef l ∧ is_mapping σ S []) →
  override (VRef l) S kw σ
  = (<[l := ODict (dict_update d kw)]> σ, Raise (ValueError "Empty schema!")).
Proof.
  intros Hl Hkw HS. rewrite (override_mapping σ l d) by done.
  erewrite bind_raise; [done|]. apply validate_falsy_schema.
  - rewrite (truthy_mapping _ _ (dict_update d kw)) by apply lookup_insert_eq.
    apply bool_decide_eq_true. by apply dict_update_nonempty.
  - destruct HS as [->|(Hne & lS & -> & HlS)]; [done|].
    rewrite (truthy_mapping _ _ []); [done|].
    rewrite lookup_insert_ne by congruence. done.
Qed.

Lemma override_empty_schema_witness :
  override (C := Demo.collaborators) (VRef 1%positive) (VRef 2%positive)
    [("speed", VInt 7)] (Demo.heap0 [] [])
  = (<[1%positive := ODict (dict_update [] [("speed", VInt 7)])]> (Demo.heap0 [] []),
     Raise (ValueError "Empty schema!")).
Proof.
  apply (override_empty_schema (C := Demo.collaborators)).
  - reflexivity.
  - discriminate.
  - right. split; [discriminate|]. exists 2%positive. split; reflexivity.
Defined.
